(** * Inventory service: the in-memory reservation store

    A shallow embedding of [models/product.py], [models/reservation.py],
    [store/memory.py], [api/validators.py] and the two POST handlers of
    [api/routes.py], followed by the properties of the store.

    Conventions of the embedding.
    - Python [int] is [Z].
    - A [datetime] is the number of microseconds since the epoch (UTC), a [Z];
      [timedelta(seconds=n)] is [n * 1000000] microseconds.
    - [datetime.now] and [uuid.uuid4] are inputs: every call site receives the
      value the call returned.
    - [self._products] is a [gmap]: no property below depends on its iteration
      order.  [self._reservations] is iterated by the sweep, so it keeps Python's
      insertion order: a list of (key, value) entries with unique keys.
    - [self._lock] serialises the operations; each operation is a function from
      store to store. *)

From Stdlib Require Import ZArith String List Lia Bool.
From stdpp Require Import gmap strings list fin_maps.

Open Scope string_scope.
Open Scope Z_scope.

(** ** Insertion-ordered dictionaries (Python [dict]) *)

Module pydict.

Definition dict (A : Type) : Type := list (string * A).

(** [d.get(k)] *)
Fixpoint get {A} (k : string) (d : dict A) : option A :=
  match d with
  | [] => None
  | (k', v) :: rest => if String.eqb k' k then Some v else get k rest
  end.

(** [d[k] = v]: an existing key keeps its position, a new key goes last. *)
Fixpoint set {A} (k : string) (v : A) (d : dict A) : dict A :=
  match d with
  | [] => [(k, v)]
  | (k', v') :: rest =>
      if String.eqb k' k then (k', v) :: rest else (k', v') :: set k v rest
  end.


End pydict.

Definition datetime : Type := Z.

(** [timedelta(seconds=n)] *)
Definition timedelta (seconds : Z) : Z := seconds * 1000000.

(** ** models/product.py *)

Module product.

Inductive StockStatus : Type := IN_STOCK | LOW_STOCK | OUT_OF_STOCK.

Record Product : Type := mkProduct {
  product_id : string;
  name : string;
  quantity : Z;
  reserved : Z;
  warehouse : string
}.

(** [Product(product_id=pid, name=name, quantity=qty)] *)
Definition new (pid nm : string) (qty : Z) : Product :=
  mkProduct pid nm qty 0 "us-west-2a".

(** [product.reserved = v] *)
Definition set_reserved (p : Product) (v : Z) : Product :=
  mkProduct (product_id p) (name p) (quantity p) v (warehouse p).

Definition available (p : Product) : Z :=
  Z.max 0 (quantity p - reserved p).

Definition status (p : Product) : StockStatus :=
  if available p <=? 0 then OUT_OF_STOCK
  else if available p <? 10 then LOW_STOCK
  else IN_STOCK.

End product.

(** ** models/reservation.py *)

Module reservation.

Inductive ReservationStatus : Type := ACTIVE | FULFILLED | EXPIRED | CANCELLED.

Definition status_eqb (a b : ReservationStatus) : bool :=
  match a, b with
  | ACTIVE, ACTIVE | FULFILLED, FULFILLED
  | EXPIRED, EXPIRED | CANCELLED, CANCELLED => true
  | _, _ => false
  end.

Record Reservation : Type := mkReservation {
  product_id : string;
  quantity : Z;
  order_id : string;
  reservation_id : string;
  status : ReservationStatus;
  created_at : datetime;
  expires_at : option datetime
}.

(** [res.status = v] *)
Definition set_status (r : Reservation) (v : ReservationStatus) : Reservation :=
  mkReservation (product_id r) (quantity r) (order_id r) (reservation_id r)
                v (created_at r) (expires_at r).

(** [is_expired], with [now] the reading of [datetime.now(timezone.utc)]. *)
Definition is_expired (now : datetime) (r : Reservation) : bool :=
  match expires_at r with
  | None => false
  | Some e => now >? e
  end.

End reservation.

(** ** store/memory.py *)

Module memory.

Import product reservation.

Record InMemoryInventoryStore : Type := mkStore {
  _products : gmap string Product;
  _reservations : pydict.dict Reservation;
  _reservation_ttl : Z
}.

Definition catalog : list (string * string * Z) :=
  [ ("OLJCESPC7Z", "National Park Foundation Explorascope", 100);
    ("66VCHSJNUP", "Starsense Explorer Telescope", 50);
    ("1YMWWN1N4O", "Roof Binoculars", 200);
    ("L9ECAV7KIM", "Eclipsmart Travel Refractor Telescope", 30);
    ("2ZYFJ3GM2N", "Solar System Color Imager", 75);
    ("0PUK6V6EV0", "Solar Filter", 150);
    ("LS4PSXUNUM", "Red Flashlight", 500);
    ("9SIQT8TOJO", "Optical Tube Assembly", 25);
    ("6E92ZMYYFZ", "The Comet Book", 300);
    ("HQTGWGPNH4", "Lens Cleaning Kit", 1000) ].

(** The loop of [_seed_catalog]: [self._products[pid] = Product(...)]. *)
Definition _seed_catalog (products : gmap string Product) : gmap string Product :=
  fold_left
    (fun ps '(pid, nm, qty) => <[pid := product.new pid nm qty]> ps)
    catalog products.

(** [InMemoryInventoryStore(reservation_ttl_seconds)] *)
Definition init (reservation_ttl_seconds : Z) : InMemoryInventoryStore :=
  mkStore (_seed_catalog ∅) [] reservation_ttl_seconds.

Definition get_product (pid : string) (s : InMemoryInventoryStore)
  : option Product :=
  _products s !! pid.

Definition get_reservation (rid : string) (s : InMemoryInventoryStore)
  : option Reservation :=
  pydict.get rid (_reservations s).

(** [reserve].  [now1] is the clock reading in the [expires_at] argument,
    [uuid] and [now2] are what the [reservation_id] and [created_at]
    default factories return when the record is constructed. *)
Definition reserve (pid : string) (qty : Z) (oid : string)
           (now1 : datetime) (uuid : string) (now2 : datetime)
           (s : InMemoryInventoryStore)
  : option Reservation * InMemoryInventoryStore :=
  match _products s !! pid with
  | None => (None, s)
  | Some p =>
      if available p <? qty then (None, s)
      else
        let p' := product.set_reserved p (product.reserved p + qty) in
        let r := mkReservation pid qty oid uuid ACTIVE now2
                   (Some (now1 + timedelta (_reservation_ttl s))) in
        (Some r,
         mkStore (<[pid := p']> (_products s))
                 (pydict.set (reservation_id r) r (_reservations s))
                 (_reservation_ttl s))
  end.

Definition release (pid : string) (qty : Z) (s : InMemoryInventoryStore)
  : bool * InMemoryInventoryStore :=
  match _products s !! pid with
  | None => (false, s)
  | Some p =>
      let p' := product.set_reserved p (Z.max 0 (product.reserved p - qty)) in
      (true,
       mkStore (<[pid := p']> (_products s)) (_reservations s)
               (_reservation_ttl s))
  end.

(** The statement under [if product:] in the sweep. *)
Definition give_back (r : Reservation) (ps : gmap string Product)
  : gmap string Product :=
  match ps !! reservation.product_id r with
  | None => ps
  | Some p =>
      <[reservation.product_id r :=
          product.set_reserved p
            (Z.max 0 (product.reserved p - reservation.quantity r))]> ps
  end.

(** The loop of [expire_reservations] over the entries of
    [self._reservations], in order.  [clock i] is what [datetime.now] returns
    while the loop is at entry number [i]; it is read by [is_expired] only. *)
Fixpoint expire_loop (clock : nat -> datetime) (i : nat)
         (rs : pydict.dict Reservation) (ps : gmap string Product)
         (expired_count : Z)
  : pydict.dict Reservation * gmap string Product * Z :=
  match rs with
  | [] => ([], ps, expired_count)
  | (k, res) :: rest =>
      if status_eqb (reservation.status res) ACTIVE
         && is_expired (clock i) res
      then
        let res' := set_status res EXPIRED in
        let ps' := give_back res ps in
        let '(rest', ps'', n) :=
          expire_loop clock (S i) rest ps' (expired_count + 1) in
        ((k, res') :: rest', ps'', n)
      else
        let '(rest', ps'', n) :=
          expire_loop clock (S i) rest ps expired_count in
        ((k, res) :: rest', ps'', n)
  end.

Definition expire_reservations (clock : nat -> datetime)
           (s : InMemoryInventoryStore) : Z * InMemoryInventoryStore :=
  let '(rs, ps, n) := expire_loop clock 0 (_reservations s) (_products s) 0 in
  (n, mkStore ps rs (_reservation_ttl s)).

End memory.

(** ** api/validators.py *)

Module validators.

(** A value of the parsed request body.  A float is [m * 2^e]. *)
#[warnings="-register-all"] Inductive json : Type :=
| JNull
| JBool (b : bool)
| JInt (n : Z)
| JFloat (m e : Z)
| JStr (s : string)
| JArr (items : list json)
| JObj (members : list (string * json)).

(** Python truth value. *)
Definition truthy (v : json) : bool :=
  match v with
  | JNull => false
  | JBool b => b
  | JInt n => negb (n =? 0)
  | JFloat m _ => negb (m =? 0)
  | JStr s => negb (String.eqb s "")
  | JArr items => match items with [] => false | _ => true end
  | JObj members => match members with [] => false | _ => true end
  end.

(** [isinstance(v, int)], with the integer: [bool] is a subclass of [int]. *)
Definition as_int (v : json) : option Z :=
  match v with
  | JBool b => Some (if b then 1 else 0)
  | JInt n => Some n
  | _ => None
  end.

(** The request body [data], restricted to the keys the handlers read; a
    missing key is [None].  [order_id] is never inspected, it is carried at
    the type the store declares for it. *)
Record RequestData : Type := mkData {
  d_product_id : option json;
  d_quantity : option json;
  d_order_id : option string
}.

(** [data.get("quantity", 1)] *)
Definition get_quantity (data : RequestData) : json :=
  default (JInt 1) (d_quantity data).

Definition validate_reserve_request (data : RequestData) : option string :=
  if negb (from_option truthy false (d_product_id data))
  then Some "product_id is required"
  else
    match as_int (get_quantity data) with
    | None => Some "quantity must be a positive integer"
    | Some quantity =>
        if quantity <? 1 then Some "quantity must be a positive integer"
        else if quantity >? 50
             then Some "quantity exceeds maximum of 50 per reservation"
             else None
    end.

(** Same checks as for a reservation, without the upper bound. *)
Definition validate_release_request (data : RequestData) : option string :=
  if negb (from_option truthy false (d_product_id data))
  then Some "product_id is required"
  else
    match as_int (get_quantity data) with
    | None => Some "quantity must be a positive integer"
    | Some quantity =>
        if quantity <? 1 then Some "quantity must be a positive integer"
        else None
    end.

End validators.

(** ** api/routes.py: the reserve handler *)

Module routes.

Import product reservation memory validators.

(** The responses of [reserve_stock], one constructor per [return]; an
    exception that leaves the handler is the framework's 500. *)
Inductive Response : Type :=
| Error400 (error : string)
| NotFound404
| InsufficientStock409 (available requested : Z)
| Created201 (body : Reservation)
| Unhandled500.

(** [reserve_stock].  Spans and metrics do not influence the result and are
    left out.  A [product_id] that is not a string finds no key of
    [_products]; a list or an object is not hashable and [dict.get] raises. *)
Definition reserve_stock (data : RequestData)
           (now1 : datetime) (uuid : string) (now2 : datetime)
           (store : InMemoryInventoryStore)
  : Response * InMemoryInventoryStore :=
  match validate_reserve_request data with
  | Some error => (Error400 error, store)
  | None =>
      match d_product_id data, as_int (get_quantity data) with
      | Some (JStr pid), Some quantity =>
          let order_id := default "" (d_order_id data) in
          let '(reservation, store') :=
            reserve pid quantity order_id now1 uuid now2 store in
          match reservation with
          | None =>
              match get_product pid store' with
              | None => (NotFound404, store')
              | Some p =>
                  (InsufficientStock409 (available p) quantity, store')
              end
          | Some r => (Created201 r, store')
          end
      | Some (JArr _), Some _ | Some (JObj _), Some _ =>
          (Unhandled500, store)
      | Some _, Some _ => (NotFound404, store)
      | _, _ => (Unhandled500, store)
      end
  end.

(** The responses of [release_stock].  The body of the 200 carries
    [product_id], [released] and [available_after]; its [timestamp] is left
    out. *)
Inductive ReleaseResponse : Type :=
| ReleaseError400 (error : string)
| ReleaseNotFound404
| Released200 (product_id : string) (released available_after : Z)
| ReleaseUnhandled500.

(** [release_stock], with the same reading of [product_id] as in
    [reserve_stock]. *)
Definition release_stock (data : RequestData) (store : InMemoryInventoryStore)
  : ReleaseResponse * InMemoryInventoryStore :=
  match validate_release_request data with
  | Some error => (ReleaseError400 error, store)
  | None =>
      match d_product_id data, as_int (get_quantity data) with
      | Some (JStr pid), Some quantity =>
          let '(success, store') := release pid quantity store in
          if negb success then (ReleaseNotFound404, store')
          else
            let available_after :=
              match get_product pid store' with
              | Some p => available p
              | None => 0
              end in
            (Released200 pid quantity available_after, store')
      | Some (JArr _), Some _ | Some (JObj _), Some _ =>
          (ReleaseUnhandled500, store)
      | Some _, Some _ => (ReleaseNotFound404, store)
      | _, _ => (ReleaseUnhandled500, store)
      end
  end.

End routes.

(** ** Sequences of store operations *)

Module trace.

Import product reservation memory.

(** One call on the store, with the values its reads of the clock and of
    [uuid4] return. *)
Inductive Op : Type :=
| Reserve (pid : string) (qty : Z) (oid : string)
          (now1 : datetime) (uuid : string) (now2 : datetime)
| Release (pid : string) (qty : Z)
| Expire (clock : nat -> datetime).

Definition step (s : InMemoryInventoryStore) (op : Op)
  : InMemoryInventoryStore :=
  match op with
  | Reserve pid qty oid now1 uuid now2 =>
      snd (reserve pid qty oid now1 uuid now2 s)
  | Release pid qty => snd (release pid qty s)
  | Expire clock => snd (expire_reservations clock s)
  end.

Definition run (ops : list Op) (s : InMemoryInventoryStore)
  : InMemoryInventoryStore :=
  fold_left step ops s.

(** The quantity argument of a call, if it has one. *)
Definition op_quantity (op : Op) : option Z :=
  match op with
  | Reserve _ qty _ _ _ _ => Some qty
  | Release _ qty => Some qty
  | Expire _ => None
  end.

Definition nonneg_quantity (op : Op) : Prop :=
  match op_quantity op with
  | Some qty => 0 <= qty
  | None => True
  end.

End trace.

(** ** Predicates and reference functions of the statements *)

Module props.

Import product reservation memory.

(** The product invariant of the data model. *)
Definition product_ok (p : Product) : Prop :=
  0 <= product.reserved p <= product.quantity p.

Definition ledger_ok (ps : gmap string Product) : Prop :=
  forall pid p, ps !! pid = Some p -> product_ok p.

Definition holds_nonneg (rs : pydict.dict Reservation) : Prop :=
  Forall (fun e => 0 <= reservation.quantity (snd e)) rs.

(** The condition of the sweep: ACTIVE and past its expiry time. *)
Definition stale (now : datetime) (r : Reservation) : bool :=
  status_eqb (reservation.status r) ACTIVE && is_expired now r.

(** What a sweep at [now] does to one entry of the reservation table. *)
Definition expire_entry (now : datetime) (e : string * Reservation)
  : string * Reservation :=
  if stale now (snd e) then (fst e, set_status (snd e) EXPIRED) else e.

(** Stock given back for a list of reservations, one after the other. *)
Definition give_back_all (l : list Reservation) (ps : gmap string Product)
  : gmap string Product :=
  fold_left (fun acc r => give_back r acc) l ps.

(** Quantity held for [pid] by the reservations of [l]. *)
Definition held_for (pid : string) (l : list Reservation) : Z :=
  fold_right
    (fun r acc =>
       if String.eqb (reservation.product_id r) pid
       then reservation.quantity r + acc else acc)
    0 l.

(** What a run from the seeded catalog keeps. *)
Definition store_ok (s : InMemoryInventoryStore) : Prop :=
  ledger_ok (_products s) /\ holds_nonneg (_reservations s).

(** A store with two reservations: 10 units taken at time 0 and 5 units taken at
    time 5 s, under a TTL of one second. *)
Definition two_holds : InMemoryInventoryStore :=
  trace.run [trace.Reserve "OLJCESPC7Z" 10 "order-1" 0 "r-1" 0;
       trace.Reserve "9SIQT8TOJO" 5 "order-2" 5000000 "r-2" 5000000]
      (init 1).


End props.

(** ** The service as its callers drive it *)

Module service.

Import product reservation memory validators routes.

(** What reaches the store from outside: the two POST handlers, and the call
    of [expire_reservations] made by the worker of [tasks/expiry.py] at each
    turn of its loop. *)
Inductive Call : Type :=
| PostReserve (data : RequestData)
              (now1 : datetime) (uuid : string) (now2 : datetime)
| PostRelease (data : RequestData)
| Sweep (clock : nat -> datetime).

Definition handle (s : InMemoryInventoryStore) (c : Call)
  : InMemoryInventoryStore :=
  match c with
  | PostReserve data now1 uuid now2 =>
      snd (reserve_stock data now1 uuid now2 s)
  | PostRelease data => snd (release_stock data s)
  | Sweep clock => snd (expire_reservations clock s)
  end.

Definition serve (calls : list Call) (s : InMemoryInventoryStore)
  : InMemoryInventoryStore :=
  fold_left handle calls s.

End service.

(** ** Reference functions and predicates of the further properties *)

Module reference.

Import product reservation memory props.

(** The table after a sweep that starts at entry number [i]. *)
Fixpoint table_at (clock : nat -> datetime) (i : nat)
         (rs : pydict.dict Reservation) : pydict.dict Reservation :=
  match rs with
  | [] => []
  | e :: rest => expire_entry (clock i) e :: table_at clock (S i) rest
  end.

(** The reservations such a sweep transitions, in table order. *)
Fixpoint swept_at (clock : nat -> datetime) (i : nat)
         (rs : pydict.dict Reservation) : list Reservation :=
  match rs with
  | [] => []
  | e :: rest =>
      if stale (clock i) (snd e) then snd e :: swept_at clock (S i) rest
      else swept_at clock (S i) rest
  end.

(** The fields of a product that no operation writes. *)
Definition same_article (p p' : Product) : Prop :=
  product.product_id p' = product.product_id p /\
  product.name p' = product.name p /\
  product.quantity p' = product.quantity p /\
  product.warehouse p' = product.warehouse p.

(** What every entry of the reservation table looks like on a run from the
    seeded catalog. *)
Definition entry_ok (ps : gmap string Product) (e : string * Reservation)
  : Prop :=
  fst e = reservation_id (snd e) /\
  (reservation.status (snd e) = ACTIVE \/
   reservation.status (snd e) = EXPIRED) /\
  is_Some (expires_at (snd e)) /\
  is_Some (ps !! reservation.product_id (snd e)).

Definition table_ok (s : InMemoryInventoryStore) : Prop :=
  NoDup (map fst (_reservations s)) /\
  Forall (entry_ok (_products s)) (_reservations s).

(** One step in the life of a reservation: it stays as it is, or goes from
    ACTIVE to EXPIRED with every other field kept. *)
Definition ages_to (r r' : Reservation) : Prop :=
  r' = r \/ (reservation.status r = ACTIVE /\ r' = set_status r EXPIRED).

(** The identifier drawn for a reservation is not yet a key of the table. *)
Definition fresh_uuid (s : InMemoryInventoryStore) (op : trace.Op) : Prop :=
  match op with
  | trace.Reserve _ _ _ _ uuid _ => pydict.get uuid (_reservations s) = None
  | _ => True
  end.

(** Number of ACTIVE entries of a reservation table. *)
Definition active_entries (rs : pydict.dict Reservation) : nat :=
  length (List.filter
            (fun e => status_eqb (reservation.status (snd e)) ACTIVE) rs).

(** No reservation of a run draws an identifier that is already a key. *)
Fixpoint fresh_uuids (ops : list trace.Op) (s : InMemoryInventoryStore)
  : Prop :=
  match ops with
  | [] => True
  | op :: rest => fresh_uuid s op /\ fresh_uuids rest (trace.step s op)
  end.

(** The table of the catalog is kept: no product appears or disappears, and
    only [reserved] may differ. *)
Definition catalog_kept (ps ps' : gmap string Product) : Prop :=
  forall pid,
    match ps !! pid with
    | None => ps' !! pid = None
    | Some p => exists p', ps' !! pid = Some p' /\ same_article p p'
    end.







End reference.

Import product reservation memory validators routes trace props.
Import service reference.

(** * Properties of the store *)

(** ** Dictionary facts *)

Section dict_facts.

Context {A : Type}.
Implicit Types (d : pydict.dict A) (k : string) (v : A).

Lemma get_set_eq k v d : pydict.get k (pydict.set k v d) = Some v.
Proof.
  induction d as [|[k' v'] d IH]; simpl.
  - now rewrite String.eqb_refl.
  - destruct (String.eqb k' k) eqn:E; simpl; rewrite E; auto.
Qed.

Lemma get_set_ne k k' v d :
  k <> k' -> pydict.get k' (pydict.set k v d) = pydict.get k' d.
Proof.
  intros Hne. induction d as [|[k0 v0] d IH]; simpl.
  - destruct (String.eqb_spec k k'); congruence.
  - destruct (String.eqb_spec k0 k) as [->|Hk]; simpl.
    + destruct (String.eqb_spec k k'); congruence.
    + now rewrite IH.
Qed.

End dict_facts.

(** ** Derived fields *)




(** ** The three outcomes of [reserve] and the two of [release] *)

Section outcomes.

Variables (pid oid uuid : string) (qty : Z) (now1 now2 : datetime).
Variable s : InMemoryInventoryStore.

Lemma reserve_unknown :
  get_product pid s = None ->
  reserve pid qty oid now1 uuid now2 s = (None, s).
Proof. unfold reserve, get_product. now intros ->. Qed.

Lemma reserve_denied p :
  get_product pid s = Some p -> available p < qty ->
  reserve pid qty oid now1 uuid now2 s = (None, s).
Proof.
  unfold reserve, get_product. intros -> Hlt.
  now destruct (Z.ltb_spec (available p) qty); [|lia].
Qed.

Lemma reserve_granted p :
  get_product pid s = Some p -> qty <= available p ->
  let r := mkReservation pid qty oid uuid ACTIVE now2
             (Some (now1 + timedelta (_reservation_ttl s))) in
  reserve pid qty oid now1 uuid now2 s =
  (Some r,
   mkStore (<[pid := set_reserved p (product.reserved p + qty)]> (_products s))
           (pydict.set uuid r (_reservations s))
           (_reservation_ttl s)).
Proof.
  unfold reserve, get_product. intros -> Hle.
  now destruct (Z.ltb_spec (available p) qty); [lia|].
Qed.

Lemma release_unknown :
  get_product pid s = None -> release pid qty s = (false, s).
Proof. unfold release, get_product. now intros ->. Qed.

Lemma release_known p :
  get_product pid s = Some p ->
  release pid qty s =
  (true,
   mkStore (<[pid := set_reserved p (Z.max 0 (product.reserved p - qty))]>
              (_products s))
           (_reservations s) (_reservation_ttl s)).
Proof. unfold release, get_product. now intros ->. Qed.

End outcomes.

Lemma set_reserved_same p : set_reserved p (product.reserved p) = p.
Proof. now destruct p. Qed.

Lemma set_reserved_twice p a b :
  set_reserved (set_reserved p a) b = set_reserved p b.
Proof. reflexivity. Qed.

(** ** Release *)


(** ** Failures change nothing *)

(** C10.  [reserve] fails exactly when the product is absent or its available
    stock is below the requested quantity, and then the store it leaves is the
    store it found; the same holds for a [release] that returns false. *)
Theorem failed_call_leaves_store_unchanged pid qty oid now1 uuid now2 s :
  (fst (reserve pid qty oid now1 uuid now2 s) = None <->
     get_product pid s = None \/
     exists p, get_product pid s = Some p /\ available p < qty) /\
  (fst (reserve pid qty oid now1 uuid now2 s) = None ->
     snd (reserve pid qty oid now1 uuid now2 s) = s) /\
  (fst (release pid qty s) = false -> snd (release pid qty s) = s).
Proof.
  destruct (get_product pid s) as [p|] eqn:E.
  - rewrite (release_known _ _ _ _ E). simpl.
    destruct (Z.lt_ge_cases (available p) qty) as [Hlt|Hge].
    + rewrite (reserve_denied _ _ _ _ _ _ _ _ E Hlt). simpl.
      repeat split; eauto; discriminate.
    + rewrite (reserve_granted _ _ _ _ _ _ _ _ E Hge). simpl.
      repeat split; try discriminate.
      intros [Hn|(p' & Hp' & Hlt)]; [discriminate|].
      injection Hp' as <-. lia.
  - rewrite (release_unknown _ _ _ E), (reserve_unknown _ _ _ _ _ _ _ E).
    simpl. repeat split; auto.
Qed.

(** ** Reserve then release *)



(** ** The reserve handler on a well-formed request *)

Lemma validate_reserve_request_accepts pid qty oid :
  pid <> "" -> 1 <= qty <= 50 ->
  validate_reserve_request (mkData (Some (JStr pid)) (Some (JInt qty)) oid)
  = None.
Proof.
  intros Hpid Hq. unfold validate_reserve_request. simpl.
  destruct (String.eqb_spec pid ""); [congruence|]. simpl.
  destruct (Z.ltb_spec qty 1); [lia|].
  rewrite Z.gtb_ltb. destruct (Z.ltb_spec 50 qty); [lia|]. reflexivity.
Qed.

Lemma reserve_stock_accepted pid qty oid now1 uuid now2 store :
  pid <> "" -> 1 <= qty <= 50 ->
  reserve_stock (mkData (Some (JStr pid)) (Some (JInt qty)) oid)
                now1 uuid now2 store =
  let '(reservation, store') :=
    reserve pid qty (default "" oid) now1 uuid now2 store in
  match reservation with
  | None =>
      match get_product pid store' with
      | None => (NotFound404, store')
      | Some p => (InsufficientStock409 (available p) qty, store')
      end
  | Some r => (Created201 r, store')
  end.
Proof.
  intros Hpid Hq. unfold reserve_stock.
  now rewrite validate_reserve_request_accepts.
Qed.

(** ** Derived fields and the low-stock scenario *)



(** ** A successful reservation *)




(** ** Quantities that are not positive *)




(** ** The two causes of a failed reservation *)

(** C3, as the code has it.  The store answers an unknown product and an
    insufficient stock with the same value, [None].  The handler tells them
    apart by looking the product up again: on a valid request it answers 404
    when the product is absent, and 409 carrying the product's current
    [available] and the requested quantity when the stock does not suffice; the
    store is unchanged in both cases. *)
Theorem handler_tells_failure_causes_apart
        (pid : string) (qty : Z) (oid : option string)
        (now1 : datetime) (uuid : string) (now2 : datetime)
        (s : InMemoryInventoryStore) :
  pid <> "" ->
  1 <= qty <= 50 ->
  let data := mkData (Some (JStr pid)) (Some (JInt qty)) oid in
  (get_product pid s = None ->
     fst (reserve pid qty (default "" oid) now1 uuid now2 s) = None /\
     reserve_stock data now1 uuid now2 s = (NotFound404, s)) /\
  (forall p, get_product pid s = Some p -> available p < qty ->
     fst (reserve pid qty (default "" oid) now1 uuid now2 s) = None /\
     reserve_stock data now1 uuid now2 s
       = (InsufficientStock409 (available p) qty, s)).
Proof.
  intros Hpid Hq data. unfold data. split.
  - intros E. rewrite reserve_stock_accepted by assumption.
    rewrite (reserve_unknown _ _ _ _ _ _ _ E). simpl. now rewrite E.
  - intros p E Hlt. rewrite reserve_stock_accepted by assumption.
    rewrite (reserve_denied _ _ _ _ _ _ _ _ E Hlt). simpl. now rewrite E.
Qed.

Lemma handler_tells_failure_causes_apart_witness :
  reserve_stock (mkData (Some (JStr "NONEXISTENT")) (Some (JInt 1)) None)
                0 "r-1" 0 (init 900)
    = (NotFound404, init 900) /\
  reserve_stock (mkData (Some (JStr "9SIQT8TOJO")) (Some (JInt 30)) None)
                0 "r-1" 0 (init 900)
    = (InsufficientStock409 25 30, init 900).
Proof.
  split.
  - apply (handler_tells_failure_causes_apart "NONEXISTENT" 1 None 0 "r-1" 0
             (init 900)); [discriminate | lia | vm_compute; reflexivity].
  - apply (proj2 (handler_tells_failure_causes_apart "9SIQT8TOJO" 30 None 0
                    "r-1" 0 (init 900) ltac:(discriminate) ltac:(lia))
             (product.new "9SIQT8TOJO" "Optical Tube Assembly" 25)).
    + vm_compute. reflexivity.
    + vm_compute. reflexivity.
Defined.

(** C3 as stated fails on the store: a call on an unknown product and a call
    that asks for more than is available return the same bare [None]. *)
Lemma reserve_failures_are_one_value :
  get_product "NONEXISTENT" (init 900) = None /\
  (exists p, get_product "9SIQT8TOJO" (init 900) = Some p /\
             available p < 9999) /\
  fst (reserve "NONEXISTENT" 1 "" 0 "r-1" 0 (init 900)) =
  fst (reserve "9SIQT8TOJO" 9999 "" 0 "r-1" 0 (init 900)).
Proof.
  split; [vm_compute; reflexivity|]. split.
  - eexists. split; [vm_compute; reflexivity|]. vm_compute. reflexivity.
  - vm_compute. reflexivity.
Qed.

(** ** The sweep *)

Lemma stale_spec now r :
  stale now r = true <->
  reservation.status r = ACTIVE /\
  exists e, expires_at r = Some e /\ e < now.
Proof.
  unfold stale, is_expired. rewrite andb_true_iff. split.
  - intros [Hs He]. split; [now destruct (reservation.status r)|].
    destruct (expires_at r) as [e|]; [|discriminate].
    exists e. split; [reflexivity|]. rewrite Z.gtb_ltb in He.
    now apply Z.ltb_lt.
  - intros [-> (e & -> & He)]. split; [reflexivity|].
    rewrite Z.gtb_ltb. now apply Z.ltb_lt.
Qed.





Lemma give_back_other r ps pid :
  reservation.product_id r <> pid -> give_back r ps !! pid = ps !! pid.
Proof.
  intros Hne. unfold give_back.
  destruct (ps !! reservation.product_id r); [|reflexivity].
  now apply lookup_insert_ne.
Qed.

Lemma give_back_same r ps p :
  ps !! reservation.product_id r = Some p ->
  give_back r ps !! reservation.product_id r =
  Some (set_reserved p
          (Z.max 0 (product.reserved p - reservation.quantity r))).
Proof. intros E. unfold give_back. rewrite E. apply lookup_insert_eq. Qed.

Lemma held_for_nonneg pid l :
  Forall (fun r => 0 <= reservation.quantity r) l -> 0 <= held_for pid l.
Proof.
  induction 1 as [|r l Hr _ IH]; simpl; [lia|].
  destruct (String.eqb _ _); lia.
Qed.

(** With quantities that are not negative, the clamped subtractions of a sweep
    add up: the counter drops by the total held for the product, down to 0. *)
Lemma give_back_all_lookup l :
  Forall (fun r => 0 <= reservation.quantity r) l ->
  forall ps pid p,
    ps !! pid = Some p -> 0 <= product.reserved p ->
    give_back_all l ps !! pid =
    Some (set_reserved p (Z.max 0 (product.reserved p - held_for pid l))).
Proof.
  induction 1 as [|r l Hr Hl IH]; intros ps pid p E Hp; simpl.
  - rewrite Z.sub_0_r, Z.max_r by lia. now rewrite set_reserved_same.
  - pose proof (held_for_nonneg pid l Hl) as Hh.
    destruct (String.eqb_spec (reservation.product_id r) pid) as [Heq|Hne].
    + subst pid. unfold give_back_all in *. simpl.
      rewrite (IH _ _ _ (give_back_same r ps p E)) by (simpl; lia).
      simpl. rewrite set_reserved_twice. do 2 f_equal. lia.
    + unfold give_back_all in *. simpl. apply IH; [|exact Hp].
      now rewrite give_back_other.
Qed.



(** ** Two sweeps in a row *)


Lemma expire_entry_fresh now e :
  stale now (snd e) = false -> expire_entry now e = e.
Proof. unfold expire_entry. now intros ->. Qed.







(** ** The product invariant along a run *)

Lemma ledger_ok_insert ps pid p :
  ledger_ok ps -> product_ok p -> ledger_ok (<[pid := p]> ps).
Proof.
  intros Hps Hp pid' p'. rewrite lookup_insert.
  destruct (decide (pid = pid')); [now intros [= <-] | apply Hps].
Qed.

Lemma holds_nonneg_set k r rs :
  holds_nonneg rs -> 0 <= reservation.quantity r ->
  holds_nonneg (pydict.set k r rs).
Proof.
  unfold holds_nonneg. intros Hrs Hr.
  induction Hrs as [|[k' r'] rs Hr' Hrs IH]; simpl.
  - now repeat constructor.
  - destruct (String.eqb k' k); constructor; auto.
Qed.

Lemma give_back_ok r ps :
  ledger_ok ps -> 0 <= reservation.quantity r -> ledger_ok (give_back r ps).
Proof.
  intros Hps Hr. unfold give_back.
  destruct (ps !! reservation.product_id r) as [p|] eqn:E; [|exact Hps].
  apply ledger_ok_insert; [exact Hps|].
  specialize (Hps _ _ E). unfold product_ok in *. simpl. lia.
Qed.

(** The loop keeps the invariant under any clock. *)
Lemma expire_loop_ok clock rs :
  forall i ps n,
    ledger_ok ps -> holds_nonneg rs ->
    ledger_ok (expire_loop clock i rs ps n).1.2 /\
    holds_nonneg (expire_loop clock i rs ps n).1.1.
Proof.
  induction rs as [|[k res] rs IH]; intros i ps n Hps Hrs; simpl.
  - split; [exact Hps | constructor].
  - inversion Hrs as [|? ? Hres Hrest]; subst. simpl in Hres.
    destruct (status_eqb (reservation.status res) ACTIVE
              && is_expired (clock i) res).
    + specialize (IH (S i) (give_back res ps) (n + 1)
                     (give_back_ok _ _ Hps Hres) Hrest).
      destruct (expire_loop clock (S i) rs (give_back res ps) (n + 1))
        as [[rs' ps'] n']. simpl in *.
      split; [tauto|]. constructor; [exact Hres | tauto].
    + specialize (IH (S i) ps n Hps Hrest).
      destruct (expire_loop clock (S i) rs ps n) as [[rs' ps'] n'].
      simpl in *. split; [tauto|]. constructor; [exact Hres | tauto].
Qed.

Lemma step_ok s op :
  nonneg_quantity op -> store_ok s -> store_ok (step s op).
Proof.
  intros Hop [Hps Hrs]. destruct op as [pid qty oid now1 uuid now2|pid qty|clock];
    simpl in *; unfold nonneg_quantity in Hop; simpl in Hop.
  - unfold reserve. destruct (_products s !! pid) as [p|] eqn:E; [|now split].
    destruct (Z.ltb_spec (available p) qty); [now split|]. simpl.
    split.
    + apply ledger_ok_insert; [exact Hps|].
      specialize (Hps _ _ E). unfold product_ok, available in *. simpl. lia.
    + now apply holds_nonneg_set.
  - unfold release. destruct (_products s !! pid) as [p|] eqn:E; [|now split].
    simpl. split; [|exact Hrs].
    apply ledger_ok_insert; [exact Hps|].
    specialize (Hps _ _ E). unfold product_ok in *. simpl. lia.
  - unfold expire_reservations.
    pose proof (expire_loop_ok clock (_reservations s) 0%nat (_products s) 0
                  Hps Hrs) as [H1 H2].
    destruct (expire_loop clock 0 (_reservations s) (_products s) 0)
      as [[rs' ps'] n']. simpl in *. now split.
Qed.

Lemma run_ok ops :
  forall s, Forall nonneg_quantity ops -> store_ok s -> store_ok (run ops s).
Proof.
  induction ops as [|op ops IH]; intros s Hops Hs; simpl; [exact Hs|].
  inversion Hops; subst. apply IH; [assumption|]. now apply step_ok.
Qed.

Lemma seed_ok (l : list (string * string * Z)) :
  Forall (fun e => 0 <= e.2) l ->
  forall ps, ledger_ok ps ->
    ledger_ok (fold_left
                 (fun ps '(pid, nm, qty) => <[pid := product.new pid nm qty]> ps)
                 l ps).
Proof.
  induction 1 as [|[[pid nm] qty] l Hq _ IH]; intros ps Hps; simpl;
    [exact Hps|].
  apply IH, ledger_ok_insert; [exact Hps|].
  unfold product_ok. simpl in *. lia.
Qed.

Lemma init_ok ttl : store_ok (init ttl).
Proof.
  split; [|constructor]. simpl. apply seed_ok.
  - unfold catalog. repeat constructor; simpl; lia.
  - intros pid p. rewrite lookup_empty. discriminate.
Qed.

(** C1, as the code has it.  Starting from the seeded catalog, after every
    sequence of [reserve], [release] and [expire_reservations] calls whose
    quantity arguments are not negative, every product has
    [0 <= reserved <= quantity]: [reserve] refuses what the stock does not
    cover, [release] and the sweep clamp at 0. *)
Theorem reserved_stays_within_quantity (ttl : Z) (ops : list Op)
        (pid : string) (p : Product) :
  Forall nonneg_quantity ops ->
  get_product pid (run ops (init ttl)) = Some p ->
  0 <= product.reserved p <= product.quantity p.
Proof.
  intros Hops E.
  destruct (run_ok ops (init ttl) Hops (init_ok ttl)) as [Hps _].
  exact (Hps _ _ E).
Qed.

Lemma reserved_stays_within_quantity_witness :
  get_product "OLJCESPC7Z"
    (run [Reserve "OLJCESPC7Z" 60 "order-1" 0 "r-1" 0;
          Reserve "OLJCESPC7Z" 50 "order-2" 1 "r-2" 1;
          Release "OLJCESPC7Z" 70;
          Reserve "OLJCESPC7Z" 7 "order-3" 2 "r-3" 2;
          Expire (fun _ => 2000000000)]
         (init 900))
  = Some (mkProduct "OLJCESPC7Z" "National Park Foundation Explorascope"
            100 0 "us-west-2a") /\
  0 <= 0 <= 100.
Proof.
  split; [vm_compute; reflexivity|].
  apply (reserved_stays_within_quantity 900
           [Reserve "OLJCESPC7Z" 60 "order-1" 0 "r-1" 0;
            Reserve "OLJCESPC7Z" 50 "order-2" 1 "r-2" 1;
            Release "OLJCESPC7Z" 70;
            Reserve "OLJCESPC7Z" 7 "order-3" 2 "r-3" 2;
            Expire (fun _ => 2000000000)]
           "OLJCESPC7Z"
           (mkProduct "OLJCESPC7Z" "National Park Foundation Explorascope"
              100 0 "us-west-2a")).
  - repeat (apply List.Forall_cons;
            [unfold nonneg_quantity; simpl; first [lia | exact I]|]).
    apply List.Forall_nil.
  - vm_compute. reflexivity.
Defined.

(** C1 as stated fails for negative quantities: from the seeded catalog,
    [reserve] with -1 leaves [reserved] at -1, and [release] with -200 leaves
    [reserved] at 200 on a product whose quantity is 100. *)
Lemma negative_quantities_break_the_invariant :
  (exists p,
     get_product "OLJCESPC7Z"
       (run [Reserve "OLJCESPC7Z" (-1) "" 0 "r-1" 0] (init 900)) = Some p /\
     product.reserved p < 0) /\
  (exists p,
     get_product "OLJCESPC7Z"
       (run [Release "OLJCESPC7Z" (-200)] (init 900)) = Some p /\
     product.quantity p < product.reserved p).
Proof.
  split; eexists; (split; [vm_compute; reflexivity|]); simpl; lia.
Qed.

(** * More of the service *)

(** ** The validators *)

(** X1.  [validate_reserve_request] lets a body through exactly when its
    [product_id] is truthy and its quantity (1 when the key is missing) is an
    [int] between 1 and 50. *)
Theorem validate_reserve_request_accepts_exactly (data : RequestData) :
  validate_reserve_request data = None <->
  from_option truthy false (d_product_id data) = true /\
  exists q, as_int (get_quantity data) = Some q /\ 1 <= q <= 50.
Proof.
  unfold validate_reserve_request.
  destruct (from_option truthy false (d_product_id data)); simpl.
  - destruct (as_int (get_quantity data)) as [q|].
    + rewrite Z.gtb_ltb.
      destruct (Z.ltb_spec q 1), (Z.ltb_spec 50 q); split;
        first [ intros [_ (q' & [= <-] & Hq)]; first [lia | reflexivity]
              | intros _; split; [reflexivity|]; exists q;
                split; [reflexivity | lia]
              | intros; discriminate ].
    + split; [discriminate|]. now intros [_ (q & Hq & _)].
  - split; [discriminate | now intros [H _]].
Qed.

(** X2.  [validate_release_request] lets a body through exactly when its
    [product_id] is truthy and its quantity (1 when the key is missing) is an
    [int] of at least 1: a release has no upper bound. *)
Theorem validate_release_request_accepts_exactly (data : RequestData) :
  validate_release_request data = None <->
  from_option truthy false (d_product_id data) = true /\
  exists q, as_int (get_quantity data) = Some q /\ 1 <= q.
Proof.
  unfold validate_release_request.
  destruct (from_option truthy false (d_product_id data)); simpl.
  - destruct (as_int (get_quantity data)) as [q|].
    + destruct (Z.ltb_spec q 1); split;
        first [ intros [_ (q' & [= <-] & Hq)]; first [lia | reflexivity]
              | intros _; split; [reflexivity|]; exists q;
                split; [reflexivity | lia]
              | intros; discriminate ].
    + split; [discriminate|]. now intros [_ (q & Hq & _)].
  - split; [discriminate | now intros [H _]].
Qed.

(** X3.  The two validators differ by the cap only: whatever the release
    validator refuses, the reserve validator refuses with the same message, and
    what the release validator accepts the reserve validator accepts too unless
    the quantity is above 50, which it refuses with the message on the
    maximum. *)
Theorem validators_differ_by_the_cap (data : RequestData) :
  (forall error, validate_release_request data = Some error ->
                 validate_reserve_request data = Some error) /\
  (validate_release_request data = None ->
   validate_reserve_request data = None \/
   (validate_reserve_request data
      = Some "quantity exceeds maximum of 50 per reservation" /\
    exists q, as_int (get_quantity data) = Some q /\ 50 < q)).
Proof.
  unfold validate_release_request, validate_reserve_request.
  destruct (negb (from_option truthy false (d_product_id data))).
  - split; [auto | discriminate].
  - destruct (as_int (get_quantity data)) as [q|]; [|split; [auto|discriminate]].
    destruct (Z.ltb_spec q 1); [split; [auto|discriminate]|].
    split; [discriminate|]. intros _. rewrite Z.gtb_ltb.
    destruct (Z.ltb_spec 50 q); [right | now left].
    split; [reflexivity|]. exists q. split; [reflexivity | lia].
Qed.

(** ** The two POST handlers *)

Lemma validate_reserve_request_None data :
  validate_reserve_request data = None ->
  from_option truthy false (d_product_id data) = true /\
  exists q, as_int (get_quantity data) = Some q /\ 1 <= q <= 50.
Proof.
  unfold validate_reserve_request.
  destruct (from_option truthy false (d_product_id data)); [|discriminate].
  simpl. destruct (as_int (get_quantity data)) as [q|]; [|discriminate].
  rewrite Z.gtb_ltb.
  destruct (Z.ltb_spec q 1); [discriminate|].
  destruct (Z.ltb_spec 50 q); [discriminate|].
  intros _. split; [reflexivity|]. exists q. split; [reflexivity | lia].
Qed.

Lemma validate_release_request_None data :
  validate_release_request data = None ->
  from_option truthy false (d_product_id data) = true /\
  exists q, as_int (get_quantity data) = Some q /\ 1 <= q.
Proof.
  unfold validate_release_request.
  destruct (from_option truthy false (d_product_id data)); [|discriminate].
  simpl. destruct (as_int (get_quantity data)) as [q|]; [|discriminate].
  destruct (Z.ltb_spec q 1); [discriminate|].
  intros _. split; [reflexivity|]. exists q. split; [reflexivity | lia].
Qed.

(** Either [reserve_stock] hands the store back as it got it and does not
    answer 201, or it granted a reservation of a checked quantity. *)
Lemma reserve_stock_outcome data now1 uuid now2 s :
  (snd (reserve_stock data now1 uuid now2 s) = s /\
   forall r, fst (reserve_stock data now1 uuid now2 s) <> Created201 r) \/
  (exists pid q p,
     d_product_id data = Some (JStr pid) /\
     as_int (get_quantity data) = Some q /\
     1 <= q <= 50 /\
     get_product pid s = Some p /\
     q <= available p /\
     reserve_stock data now1 uuid now2 s =
     (let '(r, s') :=
        reserve pid q (default "" (d_order_id data)) now1 uuid now2 s in
      (match r with Some r => Created201 r | None => NotFound404 end, s')) /\
     exists r s',
       reserve pid q (default "" (d_order_id data)) now1 uuid now2 s
       = (Some r, s')).
Proof.
  unfold reserve_stock.
  destruct (validate_reserve_request data) as [error|] eqn:V.
  { left. simpl. split; [reflexivity | discriminate]. }
  apply validate_reserve_request_None in V as [Ht (q & Hq & Hrange)].
  rewrite Hq.
  destruct (d_product_id data) as [[| b | n | m e | pid | l | l]|];
    try (left; simpl; split; [reflexivity | discriminate]).
  destruct (get_product pid s) as [p|] eqn:E.
  - destruct (Z.lt_ge_cases (available p) q) as [Hlt|Hge].
    + left. rewrite (reserve_denied _ _ _ _ _ _ _ _ E Hlt), E. simpl.
      split; [reflexivity | discriminate].
    + right. exists pid, q, p.
      pose proof (reserve_granted pid (default "" (d_order_id data)) uuid q
                    now1 now2 s p E Hge) as R. simpl in R.
      rewrite R. repeat split; eauto; lia.
  - left. rewrite (reserve_unknown _ _ _ _ _ _ _ E), E. simpl.
    split; [reflexivity | discriminate].
Qed.



(** X5.  A 201 of [reserve_stock] carries an ACTIVE reservation for a product of
    the store, named by a string [product_id], with a quantity between 1 and 50
    that the product's available stock covered; the reservation is stored under
    its identifier and the product's [reserved] went up by that quantity. *)
Theorem reserve_stock_201_is_a_checked_grant data now1 uuid now2 s r :
  fst (reserve_stock data now1 uuid now2 s) = Created201 r ->
  let s' := snd (reserve_stock data now1 uuid now2 s) in
  exists p,
    d_product_id data = Some (JStr (reservation.product_id r)) /\
    get_product (reservation.product_id r) s = Some p /\
    1 <= reservation.quantity r <= 50 /\
    reservation.quantity r <= available p /\
    reservation.status r = ACTIVE /\
    reservation.order_id r = default "" (d_order_id data) /\
    get_reservation (reservation_id r) s' = Some r /\
    get_product (reservation.product_id r) s' =
      Some (set_reserved p (product.reserved p + reservation.quantity r)).
Proof.
  intros H201 s'. unfold s'. clear s'.
  destruct (reserve_stock_outcome data now1 uuid now2 s)
    as [[_ H]|(pid & q & p & Hpid & Hq & Hrange & E & Hge & Heq & _)].
  { now destruct (H r). }
  pose proof (reserve_granted pid (default "" (d_order_id data)) uuid q
                now1 now2 s p E Hge) as R. simpl in R.
  rewrite Heq, R in H201 |- *. simpl in H201 |- *.
  injection H201 as <-. simpl. exists p.
  unfold get_reservation, get_product in *. simpl.
  repeat split; auto; try lia.
  - apply get_set_eq.
  - apply lookup_insert_eq.
Qed.

Lemma reserve_stock_201_is_a_checked_grant_witness :
  exists p,
    get_product "OLJCESPC7Z" (init 900) = Some p /\
    get_product "OLJCESPC7Z"
      (snd (reserve_stock
              (mkData (Some (JStr "OLJCESPC7Z")) (Some (JBool true)) None)
              0 "r-1" 0 (init 900)))
    = Some (set_reserved p (product.reserved p + 1)).
Proof.
  destruct (reserve_stock_201_is_a_checked_grant
              (mkData (Some (JStr "OLJCESPC7Z")) (Some (JBool true)) None)
              0 "r-1" 0 (init 900)
              (mkReservation "OLJCESPC7Z" 1 "" "r-1" ACTIVE 0
                 (Some (0 + timedelta 900))))
    as (p & _ & E & _ & _ & _ & _ & _ & E').
  - vm_compute. reflexivity.
  - exists p. split; [exact E | exact E'].
Defined.

(** Either [release_stock] hands the store back as it got it and does not
    answer 200, or it released a checked quantity on a product of the store. *)
Lemma release_stock_outcome data s :
  (snd (release_stock data s) = s /\
   forall pid q a, fst (release_stock data s) <> Released200 pid q a) \/
  (exists pid q p,
     d_product_id data = Some (JStr pid) /\
     as_int (get_quantity data) = Some q /\
     1 <= q /\
     get_product pid s = Some p /\
     let p' := set_reserved p (Z.max 0 (product.reserved p - q)) in
     release_stock data s =
     (Released200 pid q (available p'),
      mkStore (<[pid := p']> (_products s)) (_reservations s)
              (_reservation_ttl s))).
Proof.
  unfold release_stock.
  destruct (validate_release_request data) as [error|] eqn:V.
  { left. simpl. split; [reflexivity | discriminate]. }
  apply validate_release_request_None in V as [Ht (q & Hq & Hrange)].
  rewrite Hq.
  destruct (d_product_id data) as [[| b | n | m e | pid | l | l]|];
    try (left; simpl; split; [reflexivity | discriminate]).
  destruct (get_product pid s) as [p|] eqn:E.
  - right. exists pid, q, p. rewrite (release_known _ _ _ _ E). simpl.
    repeat split; auto.
    unfold get_product. simpl. now rewrite lookup_insert_eq.
  - left. rewrite (release_unknown _ _ _ E). simpl.
    split; [reflexivity | discriminate].
Qed.

(** X6.  [release_stock] never touches the reservation table.  A 200 means a
    quantity of at least 1 was released on a product of the store named by a
    string: its [reserved] is now [max(0, reserved - quantity)] and
    [available_after] is the product's available stock after that.  Any other
    answer leaves the whole store as it was. *)
Theorem release_stock_answers data s :
  let s' := snd (release_stock data s) in
  _reservations s' = _reservations s /\
  ((forall pid q a, fst (release_stock data s) <> Released200 pid q a) ->
   s' = s) /\
  (forall pid q a,
     fst (release_stock data s) = Released200 pid q a ->
     exists p,
       d_product_id data = Some (JStr pid) /\ 1 <= q /\
       get_product pid s = Some p /\
       get_product pid s' =
         Some (set_reserved p (Z.max 0 (product.reserved p - q))) /\
       a = Z.max 0 (product.quantity p - Z.max 0 (product.reserved p - q))).
Proof.
  intros s'. unfold s'. clear s'.
  destruct (release_stock_outcome data s)
    as [[Hs Hno]|(pid & q & p & Hpid & Hq & Hrange & E & Heq)].
  - rewrite Hs. repeat split; auto.
    intros pid q a H. now destruct (Hno pid q a).
  - simpl in Heq. rewrite Heq. simpl. repeat split.
    + intros Hno. now destruct (Hno _ _ _ eq_refl).
    + intros pid' q' a [= <- <- <-]. exists p.
      unfold get_product in *. simpl. rewrite lookup_insert_eq.
      repeat split; auto.
Qed.

(** ** The invariant behind the handlers *)

Lemma handle_ok s c : store_ok s -> store_ok (handle s c).
Proof.
  intros Hs. destruct c as [data now1 uuid now2|data|clock]; simpl.
  - destruct (reserve_stock_outcome data now1 uuid now2 s)
      as [[-> _]|(pid & q & p & _ & _ & Hq & _ & _ & Heq & _)]; [exact Hs|].
    rewrite Heq.
    change (store_ok
              (snd (let '(r, s') :=
                      reserve pid q (default "" (d_order_id data))
                              now1 uuid now2 s in
                    (match r with Some r0 => Created201 r0 | None => NotFound404
                     end, s')))).
    destruct (reserve pid q (default "" (d_order_id data)) now1 uuid now2 s)
      as [r s'] eqn:R. simpl.
    change s' with (snd (r, s')). rewrite <- R.
    apply (step_ok s (Reserve pid q (default "" (d_order_id data))
                              now1 uuid now2)); [|exact Hs].
    unfold nonneg_quantity. simpl. lia.
  - destruct (release_stock_outcome data s)
      as [[-> _]|(pid & q & p & _ & _ & Hq & E & Heq)]; [exact Hs|].
    simpl in Heq. rewrite Heq. simpl.
    pose proof (step_ok s (Release pid q)) as H. simpl in H.
    rewrite (release_known _ _ _ _ E) in H. simpl in H.
    apply H; [|exact Hs]. unfold nonneg_quantity. simpl. lia.
  - apply (step_ok s (Expire clock)); [exact I | exact Hs].
Qed.

Lemma serve_ok calls : forall s, store_ok s -> store_ok (serve calls s).
Proof.
  induction calls as [|c calls IH]; intros s Hs; simpl; [exact Hs|].
  apply IH. now apply handle_ok.
Qed.

(** X7.  Whatever bodies are posted to the reserve and release handlers, in
    whatever order and interleaved with sweeps under any clock, every product of
    a store that started from the seeded catalog has
    [0 <= reserved <= quantity], and its [available] is [quantity - reserved]
    without the clamp. *)
Theorem handlers_keep_reserved_within_quantity
        (ttl : Z) (calls : list Call) (pid : string) (p : Product) :
  get_product pid (serve calls (init ttl)) = Some p ->
  0 <= product.reserved p <= product.quantity p /\
  available p = product.quantity p - product.reserved p.
Proof.
  intros E.
  destruct (serve_ok calls (init ttl) (init_ok ttl)) as [Hps _].
  pose proof (Hps _ _ E) as H. unfold product_ok in H.
  split; [exact H|]. unfold available. lia.
Qed.

Lemma handlers_keep_reserved_within_quantity_witness :
  get_product "9SIQT8TOJO"
    (serve [PostReserve
              (mkData (Some (JStr "9SIQT8TOJO")) (Some (JInt 20)) None)
              0 "r-1" 0;
            PostReserve
              (mkData (Some (JStr "9SIQT8TOJO")) (Some (JInt (-3))) None)
              1 "r-2" 1;
            PostRelease
              (mkData (Some (JStr "9SIQT8TOJO")) (Some (JInt 700)) None);
            PostReserve
              (mkData (Some (JStr "9SIQT8TOJO")) None (Some "order-9"))
              2 "r-3" 2;
            Sweep (fun _ => 1000000)]
           (init 1))
  = Some (mkProduct "9SIQT8TOJO" "Optical Tube Assembly" 25 1 "us-west-2a") /\
  0 <= 1 <= 25.
Proof.
  split; [vm_compute; reflexivity|].
  apply (handlers_keep_reserved_within_quantity 1
           [PostReserve
              (mkData (Some (JStr "9SIQT8TOJO")) (Some (JInt 20)) None)
              0 "r-1" 0;
            PostReserve
              (mkData (Some (JStr "9SIQT8TOJO")) (Some (JInt (-3))) None)
              1 "r-2" 1;
            PostRelease
              (mkData (Some (JStr "9SIQT8TOJO")) (Some (JInt 700)) None);
            PostReserve
              (mkData (Some (JStr "9SIQT8TOJO")) None (Some "order-9"))
              2 "r-3" 2;
            Sweep (fun _ => 1000000)]
           "9SIQT8TOJO"
           (mkProduct "9SIQT8TOJO" "Optical Tube Assembly" 25 1 "us-west-2a")).
  vm_compute. reflexivity.
Defined.

(** ** The sweep under any clock *)

Lemma expire_loop_any clock rs :
  forall i ps n,
    expire_loop clock i rs ps n =
    (table_at clock i rs,
     give_back_all (swept_at clock i rs) ps,
     n + Z.of_nat (length (swept_at clock i rs))).
Proof.
  induction rs as [|[k res] rs IH]; intros i ps n; simpl.
  - f_equal. lia.
  - unfold expire_entry at 1. simpl. fold (stale (clock i) res).
    destruct (stale (clock i) res); rewrite IH; simpl; f_equal;
      rewrite ?Nat2Z.inj_succ; lia.
Qed.

Lemma expire_reservations_any clock s :
  expire_reservations clock s =
  (Z.of_nat (length (swept_at clock 0 (_reservations s))),
   mkStore (give_back_all (swept_at clock 0 (_reservations s)) (_products s))
           (table_at clock 0 (_reservations s))
           (_reservation_ttl s)).
Proof. unfold expire_reservations. now rewrite expire_loop_any. Qed.

Lemma table_at_lookup clock (rs : list (string * Reservation)) :
  forall i j e,
    rs !! j = Some e ->
    (table_at clock i rs : list (string * Reservation)) !! j
    = Some (expire_entry (clock (i + j)%nat) e).
Proof.
  induction rs as [|e0 rs IH]; intros i j e Hj; [discriminate|].
  destruct j as [|j]; cbn [table_at].
  - injection Hj as ->. now rewrite Nat.add_0_r.
  - change ((table_at clock (S i) rs : list (string * Reservation)) !! j
            = Some (expire_entry (clock (i + S j)%nat) e)).
    change (rs !! j = Some e) in Hj.
    rewrite (IH (S i) j e Hj). do 3 f_equal. lia.
Qed.

Lemma table_at_keys clock rs :
  forall i, map fst (table_at clock i rs) = map fst rs.
Proof.
  induction rs as [|[k r] rs IH]; intros i; simpl; [reflexivity|].
  rewrite IH. f_equal. unfold expire_entry. now destruct (stale _ _).
Qed.

(** X8.  Under any clock, the sweep decides each entry of the table with the
    clock reading taken at that entry: the reservation becomes EXPIRED when it
    is ACTIVE and that reading is past its [expires_at], and is left as it is
    otherwise; the entry keeps its key and its place. *)
Theorem sweep_decides_each_entry_at_its_reading
        (clock : nat -> datetime) (s : InMemoryInventoryStore)
        (j : nat) (k : string) (r : Reservation) :
  (_reservations s : list (string * Reservation)) !! j = Some (k, r) ->
  (_reservations (snd (expire_reservations clock s))
     : list (string * Reservation)) !! j
  = Some (k, if status_eqb (reservation.status r) ACTIVE
                && is_expired (clock j) r
             then set_status r EXPIRED else r).
Proof.
  intros Hj. rewrite expire_reservations_any. cbn [snd _reservations].
  rewrite (table_at_lookup clock _ 0%nat j (k, r) Hj). cbn [Nat.add].
  unfold expire_entry, stale. cbn [fst snd]. now destruct (_ && _).
Qed.

Lemma sweep_decides_each_entry_at_its_reading_witness :
  let clock := fun i : nat => match i with O => 0 | _ => 9000000 end in
  (_reservations (snd (expire_reservations clock two_holds))
     : list (string * Reservation)) !! 1%nat
  = Some ("r-2",
          mkReservation "9SIQT8TOJO" 5 "order-2" "r-2" EXPIRED 5000000
            (Some 6000000)).
Proof.
  intros clock.
  apply (sweep_decides_each_entry_at_its_reading clock two_holds 1 "r-2"
           (mkReservation "9SIQT8TOJO" 5 "order-2" "r-2" ACTIVE 5000000
              (Some 6000000))).
  vm_compute. reflexivity.
Defined.

Lemma swept_at_active clock rs :
  forall i,
    (active_entries (table_at clock i rs) + length (swept_at clock i rs))%nat
    = active_entries rs.
Proof.
  unfold active_entries.
  induction rs as [|[k r] rs IH]; intros i; simpl; [reflexivity|].
  unfold expire_entry, stale. simpl.
  destruct (status_eqb (reservation.status r) ACTIVE) eqn:Ea; simpl.
  - destruct (is_expired (clock i) r); simpl.
    + rewrite <- (IH (S i)). lia.
    + rewrite Ea. simpl. now rewrite <- (IH (S i)).
  - rewrite Ea. apply IH.
Qed.

(** X9.  Under any clock, the count a sweep returns is the number of ACTIVE
    reservations it took out of the ACTIVE state: it lies between 0 and the
    number of ACTIVE entries, the table keeps its keys in their order, and the
    ACTIVE entries left are those there were minus the count. *)
Theorem sweep_count_is_the_drop_in_active_entries
        (clock : nat -> datetime) (s : InMemoryInventoryStore) :
  let n := fst (expire_reservations clock s) in
  let s' := snd (expire_reservations clock s) in
  0 <= n <= Z.of_nat (active_entries (_reservations s)) /\
  Z.of_nat (active_entries (_reservations s')) =
    Z.of_nat (active_entries (_reservations s)) - n /\
  map fst (_reservations s') = map fst (_reservations s).
Proof.
  rewrite expire_reservations_any. simpl.
  pose proof (swept_at_active clock (_reservations s) 0) as H.
  repeat split; try lia. apply table_at_keys.
Qed.

Lemma nothing_stale clock (rs : list (string * Reservation)) :
  forall i,
    (forall j e, rs !! j = Some e -> stale (clock (i + j)%nat) (snd e) = false) ->
    table_at clock i rs = rs /\ swept_at clock i rs = [].
Proof.
  induction rs as [|e0 rs IH]; intros i H; simpl; [now split|].
  pose proof (H 0%nat e0 eq_refl) as H0. rewrite Nat.add_0_r in H0.
  rewrite H0, (expire_entry_fresh _ _ H0).
  destruct (IH (S i)) as [-> ->]; [|now split].
  intros j e Hj. replace (S i + j)%nat with (i + S j)%nat by lia.
  now apply H.
Qed.

(** X10.  A sweep that reaches every ACTIVE reservation at a clock reading not
    past its [expires_at] returns 0 and leaves the store exactly as it was. *)
Theorem sweep_before_any_expiry_changes_nothing
        (clock : nat -> datetime) (s : InMemoryInventoryStore) :
  (forall j k r e,
     (_reservations s : list (string * Reservation)) !! j = Some (k, r) ->
     reservation.status r = ACTIVE -> expires_at r = Some e ->
     clock j <= e) ->
  expire_reservations clock s = (0, s).
Proof.
  intros H. rewrite expire_reservations_any.
  destruct (nothing_stale clock (_reservations s) 0) as [-> ->].
  - intros j [k r] Hj. simpl.
    destruct (stale (clock j) r) eqn:Es; [|reflexivity].
    apply stale_spec in Es as [Ha (e & He & Hlt)].
    specialize (H j k r e Hj Ha He). lia.
  - simpl. now destruct s.
Qed.

Lemma sweep_before_any_expiry_changes_nothing_witness :
  expire_reservations (fun _ => 1000000) two_holds = (0, two_holds).
Proof.
  apply sweep_before_any_expiry_changes_nothing.
  assert (Ht : _reservations two_holds =
               [("r-1", mkReservation "OLJCESPC7Z" 10 "order-1" "r-1" ACTIVE 0
                          (Some 1000000));
                ("r-2", mkReservation "9SIQT8TOJO" 5 "order-2" "r-2" ACTIVE
                          5000000 (Some 6000000))])
    by (vm_compute; reflexivity).
  rewrite Ht.
  intros [|[|j]] k r e Hj Ha He;
    [injection Hj as <- <- | injection Hj as <- <- | discriminate Hj];
    injection He as <-; lia.
Defined.

Lemma swept_at_nonneg clock rs :
  holds_nonneg rs ->
  forall i, Forall (fun r => 0 <= reservation.quantity r) (swept_at clock i rs).
Proof.
  induction 1 as [|e rs He _ IH]; intros i; simpl; [constructor|].
  destruct (stale (clock i) (snd e)); [constructor|]; auto.
Qed.

(** X11.  When no reservation of the table has a negative quantity, a sweep
    under any clock only gives stock back: a product whose [reserved] is not
    negative keeps its id, name, quantity and warehouse, its [reserved] does
    not go up nor below 0, and its [available] does not go down. *)
Theorem sweep_only_gives_stock_back
        (clock : nat -> datetime) (s : InMemoryInventoryStore)
        (pid : string) (p : Product) :
  holds_nonneg (_reservations s) ->
  get_product pid s = Some p ->
  0 <= product.reserved p ->
  exists p',
    get_product pid (snd (expire_reservations clock s)) = Some p' /\
    same_article p p' /\
    0 <= product.reserved p' <= product.reserved p /\
    available p <= available p'.
Proof.
  intros Hrs E Hp. rewrite expire_reservations_any.
  unfold get_product in *. simpl.
  pose proof (swept_at_nonneg clock _ Hrs 0%nat) as Hq.
  rewrite (give_back_all_lookup _ Hq _ _ _ E Hp).
  pose proof (held_for_nonneg pid _ Hq) as Hh.
  eexists. split; [reflexivity|].
  unfold same_article, available. simpl. repeat split; lia.
Qed.

Lemma sweep_only_gives_stock_back_witness :
  exists p',
    get_product "OLJCESPC7Z"
      (snd (expire_reservations (fun _ => 2000000) two_holds)) = Some p' /\
    0 <= product.reserved p' <= 10.
Proof.
  destruct (sweep_only_gives_stock_back (fun _ => 2000000) two_holds
              "OLJCESPC7Z"
              (mkProduct "OLJCESPC7Z" "National Park Foundation Explorascope"
                 100 10 "us-west-2a"))
    as (p' & E & _ & H & _).
  - unfold holds_nonneg.
    repeat (apply List.Forall_cons; [simpl; lia|]). apply List.Forall_nil.
  - vm_compute. reflexivity.
  - simpl. lia.
  - exists p'. split; [exact E | exact H].
Defined.

(** ** What no operation writes *)

Lemma same_article_refl p : same_article p p.
Proof. now repeat split. Qed.

Lemma same_article_trans p q r :
  same_article p q -> same_article q r -> same_article p r.
Proof. unfold same_article. intuition congruence. Qed.

Lemma catalog_kept_refl ps : catalog_kept ps ps.
Proof.
  intros pid. destruct (ps !! pid) as [p|] eqn:E; [|reflexivity].
  exists p. split; [reflexivity | apply same_article_refl].
Qed.

Lemma catalog_kept_trans ps1 ps2 ps3 :
  catalog_kept ps1 ps2 -> catalog_kept ps2 ps3 -> catalog_kept ps1 ps3.
Proof.
  intros H12 H23 pid. specialize (H12 pid). specialize (H23 pid).
  destruct (ps1 !! pid) as [p1|].
  - destruct H12 as (p2 & E2 & A12). rewrite E2 in H23.
    destruct H23 as (p3 & E3 & A23). exists p3.
    split; [exact E3 | now apply (same_article_trans _ p2)].
  - now rewrite H12 in H23.
Qed.

Lemma catalog_kept_set_reserved ps pid p v :
  ps !! pid = Some p -> catalog_kept ps (<[pid := set_reserved p v]> ps).
Proof.
  intros E pid'. destruct (decide (pid = pid')) as [<-|Hne].
  - rewrite E, lookup_insert_eq. eexists. split; [reflexivity|].
    now repeat split.
  - rewrite lookup_insert_ne by exact Hne.
    destruct (ps !! pid') as [p'|]; [|reflexivity].
    exists p'. split; [reflexivity | apply same_article_refl].
Qed.

Lemma catalog_kept_give_back r ps : catalog_kept ps (give_back r ps).
Proof.
  unfold give_back.
  destruct (ps !! reservation.product_id r) eqn:E;
    [now apply catalog_kept_set_reserved | apply catalog_kept_refl].
Qed.

Lemma catalog_kept_give_back_all l :
  forall ps, catalog_kept ps (give_back_all l ps).
Proof.
  induction l as [|r l IH]; intros ps; [apply catalog_kept_refl|].
  unfold give_back_all in *. simpl.
  apply (catalog_kept_trans _ (give_back r ps));
    [apply catalog_kept_give_back | apply IH].
Qed.

Lemma catalog_kept_step s op :
  catalog_kept (_products s) (_products (step s op)).
Proof.
  destruct op as [pid qty oid now1 uuid now2|pid qty|clock]; simpl.
  - unfold reserve. destruct (_products s !! pid) as [p|] eqn:E;
      [|apply catalog_kept_refl].
    destruct (available p <? qty); [apply catalog_kept_refl|].
    now apply catalog_kept_set_reserved.
  - unfold release. destruct (_products s !! pid) as [p|] eqn:E;
      [|apply catalog_kept_refl].
    now apply catalog_kept_set_reserved.
  - rewrite expire_reservations_any. apply catalog_kept_give_back_all.
Qed.

Lemma catalog_kept_run ops :
  forall s, catalog_kept (_products s) (_products (run ops s)).
Proof.
  induction ops as [|op ops IH]; intros s; [apply catalog_kept_refl|].
  simpl. apply (catalog_kept_trans _ (_products (step s op)));
    [apply catalog_kept_step | apply IH].
Qed.

(** X12.  No sequence of [reserve], [release] and sweep calls, with any
    arguments, adds or removes a product or changes a product's id, name,
    quantity or warehouse: [reserved] is the only field these operations
    write, and the TTL of the store stays what it was. *)
Theorem operations_write_reserved_only
        (ops : list Op) (s : InMemoryInventoryStore) (pid : string) :
  _reservation_ttl (run ops s) = _reservation_ttl s /\
  match get_product pid s with
  | None => get_product pid (run ops s) = None
  | Some p =>
      exists p',
        get_product pid (run ops s) = Some p' /\
        product.product_id p' = product.product_id p /\
        product.name p' = product.name p /\
        product.quantity p' = product.quantity p /\
        product.warehouse p' = product.warehouse p
  end.
Proof.
  split; [|exact (catalog_kept_run ops s pid)].
  revert s. induction ops as [|op ops IH]; intros s; [reflexivity|].
  simpl. rewrite IH.
  destruct op as [pid' qty oid now1 uuid now2|pid' qty|clock]; simpl.
  - unfold reserve. destruct (_products s !! pid'); [|reflexivity].
    now destruct (available _ <? qty).
  - unfold release. now destruct (_products s !! pid').
  - now rewrite expire_reservations_any.
Qed.

(** ** The reservation table along a run *)

Section dict_more.

Context {A : Type}.
Implicit Types (d : pydict.dict A) (k : string) (v : A).

Lemma set_fresh k v d :
  pydict.get k d = None -> pydict.set k v d = (d ++ [(k, v)])%list.
Proof.
  induction d as [|[k' v'] d IH]; simpl; [reflexivity|].
  destruct (String.eqb k' k); [discriminate|]. intros H. now rewrite IH.
Qed.

Lemma set_present k v d :
  pydict.get k d <> None ->
  map fst (pydict.set k v d) = map fst d /\
  List.length (pydict.set k v d) = List.length d.
Proof.
  induction d as [|[k' v'] d IH]; simpl; [congruence|].
  destruct (String.eqb k' k); simpl; [now split|].
  intros H. destruct (IH H) as [-> ->]. now split.
Qed.

Lemma set_keys_in k v d x :
  In x (map fst (pydict.set k v d)) -> x = k \/ In x (map fst d).
Proof.
  induction d as [|[k' v'] d IH]; simpl.
  - intros [<-|[]]. now left.
  - destruct (String.eqb k' k); simpl; [tauto|].
    intros [<-|H]; [tauto|]. destruct (IH H); tauto.
Qed.

Lemma set_keys_NoDup k v d :
  NoDup (map fst d) -> NoDup (map fst (pydict.set k v d)).
Proof.
  induction d as [|[k' v'] d IH]; simpl; intros H.
  - apply NoDup_singleton.
  - apply NoDup_cons in H as [Hnotin Hrest].
    destruct (String.eqb_spec k' k) as [->|Hne]; simpl;
      apply NoDup_cons; split; auto.
    rewrite list_elem_of_In in *.
    intros Hin. apply set_keys_in in Hin as [->|Hin]; tauto.
Qed.

Lemma set_Forall (P : string * A -> Prop) k v d :
  Forall P d -> P (k, v) -> Forall P (pydict.set k v d).
Proof.
  intros Hd Hkv. induction Hd as [|[k' v'] d Hk' Hd IH]; simpl.
  - now repeat constructor.
  - destruct (String.eqb_spec k' k) as [->|Hne]; constructor; auto.
Qed.

End dict_more.

Lemma entry_ok_mono ps ps' e :
  catalog_kept ps ps' -> entry_ok ps e -> entry_ok ps' e.
Proof.
  intros Hk (Hid & Hst & He & [p Hp]). repeat split; auto.
  specialize (Hk (reservation.product_id (snd e))). rewrite Hp in Hk.
  destruct Hk as (p' & -> & _). now exists p'.
Qed.

Lemma entry_ok_expire ps now e : entry_ok ps e -> entry_ok ps (expire_entry now e).
Proof.
  intros H. unfold expire_entry. destruct (stale now (snd e)); [|exact H].
  destruct H as (Hid & _ & He & Hp). repeat split; simpl; auto.
Qed.

Lemma table_at_Forall ps clock rs :
  Forall (entry_ok ps) rs -> forall i, Forall (entry_ok ps) (table_at clock i rs).
Proof.
  induction 1 as [|e rs He _ IH]; intros i; simpl; constructor; auto.
  now apply entry_ok_expire.
Qed.

Lemma table_ok_step s op : table_ok s -> table_ok (step s op).
Proof.
  intros [Hnd Hall].
  assert (Hkept := catalog_kept_step s op).
  destruct op as [pid qty oid now1 uuid now2|pid qty|clock]; simpl in *.
  - unfold reserve in *. destruct (_products s !! pid) as [p|] eqn:E;
      [|now split].
    destruct (available p <? qty); [now split|].
    unfold table_ok. cbn [snd _reservations _products] in *. split.
    + now apply set_keys_NoDup.
    + apply set_Forall.
      * eapply Forall_impl; [exact Hall|].
        intros e He. now apply (entry_ok_mono (_products s)).
      * repeat split; simpl; auto. rewrite lookup_insert_eq. eauto.
  - unfold release in *. destruct (_products s !! pid) as [p|] eqn:E;
      [|now split].
    unfold table_ok. cbn [snd _reservations _products] in *.
    split; [exact Hnd|].
    eapply Forall_impl; [exact Hall|].
    intros e He. now apply (entry_ok_mono (_products s)).
  - rewrite expire_reservations_any in *.
    unfold table_ok. cbn [snd _reservations _products] in *. split.
    + now rewrite table_at_keys.
    + apply table_at_Forall. eapply Forall_impl; [exact Hall|].
      intros e He. now apply (entry_ok_mono (_products s)).
Qed.

Lemma table_ok_run ops : forall s, table_ok s -> table_ok (run ops s).
Proof.
  induction ops as [|op ops IH]; intros s Hs; [exact Hs|].
  simpl. apply IH. now apply table_ok_step.
Qed.

(** X13.  On every run from the seeded catalog, with any arguments, the
    reservation table has distinct keys, and every entry is stored under its
    own [reservation_id], is ACTIVE or EXPIRED (never FULFILLED nor CANCELLED),
    has an [expires_at], and names a product that is in the store. *)
Theorem reservation_table_is_well_formed (ttl : Z) (ops : list Op) :
  let s := run ops (init ttl) in
  NoDup (map fst (_reservations s)) /\
  forall k r,
    In (k, r) (_reservations s) ->
    k = reservation_id r /\
    (reservation.status r = ACTIVE \/ reservation.status r = EXPIRED) /\
    (exists e, expires_at r = Some e) /\
    (exists p, get_product (reservation.product_id r) s = Some p).
Proof.
  intros s.
  destruct (table_ok_run ops (init ttl)) as [Hnd Hall].
  { split; simpl; constructor. }
  split; [exact Hnd|]. intros k r Hin.
  rewrite List.Forall_forall in Hall.
  destruct (Hall _ Hin) as (Hid & Hst & He & Hp). simpl in *.
  repeat split; auto.
Qed.

(** ** The life of a reservation *)

Lemma ages_to_trans r1 r2 r3 : ages_to r1 r2 -> ages_to r2 r3 -> ages_to r1 r3.
Proof.
  intros [->|[Ha ->]] [->|[Hb ->]]; unfold ages_to; auto.
Qed.

Lemma table_at_get clock k rs :
  forall i r,
    pydict.get k rs = Some r ->
    exists r', pydict.get k (table_at clock i rs) = Some r' /\ ages_to r r'.
Proof.
  induction rs as [|[k0 r0] rs IH]; intros i r Hget; [discriminate|].
  simpl in *. unfold expire_entry at 1. simpl.
  destruct (stale (clock i) r0) eqn:Es; simpl;
    destruct (String.eqb k0 k); try (now apply IH).
  - injection Hget as <-. eexists. split; [reflexivity|]. right.
    apply stale_spec in Es. tauto.
  - injection Hget as <-. exists r0. split; [reflexivity | now left].
Qed.

Lemma step_ages s op k r :
  fresh_uuid s op ->
  get_reservation k s = Some r ->
  exists r', get_reservation k (step s op) = Some r' /\ ages_to r r'.
Proof.
  unfold get_reservation. intros Hfresh Hget.
  destruct op as [pid qty oid now1 uuid now2|pid qty|clock]; simpl in *.
  - exists r. split; [|now left]. unfold reserve.
    destruct (_products s !! pid); [|exact Hget].
    destruct (available _ <? qty); [exact Hget|]. simpl.
    rewrite get_set_ne; [exact Hget | congruence].
  - exists r. split; [|now left]. unfold release.
    now destruct (_products s !! pid).
  - rewrite expire_reservations_any. simpl. now apply table_at_get.
Qed.

(** X14.  While every granted reservation draws an identifier that is not yet
    in the table, a reservation once stored is never removed nor rewritten: at
    any later point of the run the table holds, under the same key, either the
    very same record or that record with status EXPIRED, and then the record
    was ACTIVE. *)
Theorem stored_reservation_only_ages
        (ops : list Op) (s : InMemoryInventoryStore)
        (k : string) (r : Reservation) :
  fresh_uuids ops s ->
  get_reservation k s = Some r ->
  exists r',
    get_reservation k (run ops s) = Some r' /\
    (r' = r \/
     (reservation.status r = ACTIVE /\ r' = set_status r EXPIRED)).
Proof.
  revert s r. induction ops as [|op ops IH]; intros s r Hfresh Hget.
  - exists r. split; [exact Hget | now left].
  - destruct Hfresh as [Hop Hrest].
    destruct (step_ages s op k r Hop Hget) as (r1 & Hget1 & Hage1).
    destruct (IH _ _ Hrest Hget1) as (r2 & Hget2 & Hage2).
    exists r2. split; [exact Hget2|].
    exact (ages_to_trans _ _ _ Hage1 Hage2).
Qed.

Lemma stored_reservation_only_ages_witness :
  exists r',
    get_reservation "r-1"
      (run [Release "OLJCESPC7Z" 10;
            Reserve "OLJCESPC7Z" 3 "order-3" 6000000 "r-3" 6000000;
            Expire (fun _ => 6500000)]
           two_holds) = Some r' /\
    (r' = mkReservation "OLJCESPC7Z" 10 "order-1" "r-1" ACTIVE 0 (Some 1000000)
     \/ r' = mkReservation "OLJCESPC7Z" 10 "order-1" "r-1" EXPIRED 0
               (Some 1000000)).
Proof.
  destruct (stored_reservation_only_ages
              [Release "OLJCESPC7Z" 10;
               Reserve "OLJCESPC7Z" 3 "order-3" 6000000 "r-3" 6000000;
               Expire (fun _ => 6500000)]
              two_holds "r-1"
              (mkReservation "OLJCESPC7Z" 10 "order-1" "r-1" ACTIVE 0
                 (Some 1000000)))
    as (r' & Hget & [->|[_ ->]]).
  - vm_compute. repeat split.
  - vm_compute. reflexivity.
  - eexists. split; [exact Hget | now left].
  - eexists. split; [exact Hget | now right].
Defined.

(** ** Accounting of one call *)

(** X15.  A granted [reserve] of a quantity that is not negative lowers the
    product's [available] by exactly that quantity, and what is left is not
    negative. *)
Theorem granted_reserve_lowers_available_by_quantity
        pid qty oid now1 uuid now2 s p r s' :
  get_product pid s = Some p ->
  0 <= qty ->
  reserve pid qty oid now1 uuid now2 s = (Some r, s') ->
  qty <= available p /\
  exists p',
    get_product pid s' = Some p' /\
    available p' = available p - qty /\
    0 <= available p'.
Proof.
  intros E Hq R.
  destruct (Z.lt_ge_cases (available p) qty) as [Hlt|Hge].
  { rewrite (reserve_denied _ _ _ _ _ _ _ _ E Hlt) in R. discriminate. }
  rewrite (reserve_granted _ _ _ _ _ _ _ _ E Hge) in R.
  injection R as <- <-. split; [exact Hge|].
  eexists. split; [apply lookup_insert_eq|].
  unfold available in *. simpl. lia.
Qed.

Lemma granted_reserve_lowers_available_by_quantity_witness :
  exists p',
    get_product "OLJCESPC7Z"
      (snd (reserve "OLJCESPC7Z" 5 "" 0 "r-1" 0 (init 1))) = Some p' /\
    available p' = 95.
Proof.
  destruct (granted_reserve_lowers_available_by_quantity
              "OLJCESPC7Z" 5 "" 0 "r-1" 0 (init 1)
              (product.new "OLJCESPC7Z" "National Park Foundation Explorascope"
                 100)
              (mkReservation "OLJCESPC7Z" 5 "" "r-1" ACTIVE 0
                 (Some (0 + timedelta 1)))
              (snd (reserve "OLJCESPC7Z" 5 "" 0 "r-1" 0 (init 1))))
    as (_ & p' & E & Ha & _).
  - vm_compute. reflexivity.
  - lia.
  - vm_compute. reflexivity.
  - exists p'. split; [exact E | exact Ha].
Defined.

(** X16.  On a product with [0 <= reserved <= quantity], a [release] of a
    quantity that is not negative raises [available] by that quantity, capped
    by what was reserved: releasing more than is reserved frees exactly what
    was reserved. *)
Theorem release_raises_available_up_to_reserved pid qty s p :
  get_product pid s = Some p ->
  0 <= product.reserved p <= product.quantity p ->
  0 <= qty ->
  exists p',
    get_product pid (snd (release pid qty s)) = Some p' /\
    available p' = available p + Z.min qty (product.reserved p) /\
    product.reserved p' = product.reserved p - Z.min qty (product.reserved p).
Proof.
  intros E Hp Hq. rewrite (release_known _ _ _ _ E). simpl.
  eexists. split; [apply lookup_insert_eq|].
  unfold available. simpl. lia.
Qed.

Lemma release_raises_available_up_to_reserved_witness :
  exists p',
    get_product "OLJCESPC7Z" (snd (release "OLJCESPC7Z" 5 two_holds))
      = Some p' /\
    available p' = 95.
Proof.
  destruct (release_raises_available_up_to_reserved "OLJCESPC7Z" 5 two_holds
              (mkProduct "OLJCESPC7Z" "National Park Foundation Explorascope"
                 100 10 "us-west-2a"))
    as (p' & E & Ha & _).
  - vm_compute. reflexivity.
  - simpl. lia.
  - lia.
  - exists p'. split; [exact E | exact Ha].
Defined.

(** ** Where a granted reservation goes in the table *)

(** X17.  A granted reservation whose identifier is new goes to the end of the
    table, behind every earlier one.  If the identifier is already a key, the
    new reservation takes that entry's place: the table keeps its keys and its
    length, and the reservation that was stored under the key is gone. *)
Theorem granted_reservation_is_appended_or_replaces
        pid qty oid now1 uuid now2 s r s' :
  reserve pid qty oid now1 uuid now2 s = (Some r, s') ->
  get_reservation uuid s' = Some r /\
  (get_reservation uuid s = None ->
   _reservations s' = (_reservations s ++ [(uuid, r)])%list) /\
  (get_reservation uuid s <> None ->
   map fst (_reservations s') = map fst (_reservations s) /\
   List.length (_reservations s') = List.length (_reservations s)).
Proof.
  unfold reserve, get_reservation.
  destruct (_products s !! pid) as [p|]; [|discriminate].
  destruct (available p <? qty); [discriminate|].
  intros [= <- <-]. simpl. split; [apply get_set_eq|]. split.
  - apply set_fresh.
  - apply set_present.
Qed.

Lemma granted_reservation_is_appended_or_replaces_witness :
  get_reservation "r-1"
    (snd (reserve "OLJCESPC7Z" 1 "order-3" 7 "r-1" 7 two_holds))
  = Some (mkReservation "OLJCESPC7Z" 1 "order-3" "r-1" ACTIVE 7 (Some 1000007))
  /\
  map fst (_reservations
             (snd (reserve "OLJCESPC7Z" 1 "order-3" 7 "r-1" 7 two_holds)))
  = ["r-1"; "r-2"].
Proof.
  destruct (granted_reservation_is_appended_or_replaces
              "OLJCESPC7Z" 1 "order-3" 7 "r-1" 7 two_holds
              (mkReservation "OLJCESPC7Z" 1 "order-3" "r-1" ACTIVE 7
                 (Some 1000007))
              (snd (reserve "OLJCESPC7Z" 1 "order-3" 7 "r-1" 7 two_holds)))
    as (Hget & _ & Hsame).
  - vm_compute. reflexivity.
  - split; [exact Hget|]. destruct Hsame as [-> _].
    + vm_compute. discriminate.
    + vm_compute. reflexivity.
Defined.

(** ** A release followed by the sweep *)




(** ** A batch of reservations *)



(** ** The counter against the reservations that back it *)














